(** * jetpack.chart.utils: cosmetic helpers for chart axes

    A shallow embedding of [jetpack/chart/utils.py].  The module is a thin
    layer over the object model of a plotting library: every function
    resolves an axes object, then reads and mutates it in place.

    - numbers are Python floats: IEEE binary64, Rocq's primitive [float];
    - figures and axes are objects that are passed around by reference:
      they live in a store and are named by their index in it;
    - the library's pyplot state (the store, the current figure and the
      current axes) is threaded through a state-and-exception monad [M];
    - the library's getters and setters are modelled as reads and writes
      of the fields they manage. *)

From Stdlib Require Import Floats.PrimFloat.
From stdpp Require Import base option list strings.

Local Open Scope string_scope.

(** ** The plotting library's objects *)

Abbreviation handle := nat.

(** A text object: its string, font size and colour.  [None] stands for
    "the library's default" of a property that was never set. *)
Record Label := mkLabel {
  text : string;
  fontsize : option float;
  color : option string;
}.

(** A tick: a position along an axis and the label drawn next to it. *)
Record Tick := mkTick {
  loc : float;
  label1 : Label;
}.

(** One edge of the plot region. *)
Record Spine := mkSpine {
  spine_color : string;
  spine_bounds : option (float * float);
}.

(** The keys of [ax.spines]. *)
Inductive side := side_left | side_right | side_top | side_bottom.

Record Spines := mkSpines {
  at_left : Spine;
  at_right : Spine;
  at_top : Spine;
  at_bottom : Spine;
}.

(** [ax.xaxis] and [ax.yaxis]. *)
Record Axis := mkAxis {
  major_ticks : list Tick;
  view_limits : float * float;
  ticks_position : string;
  tick_direction : option string;
  tick_color : option string;
  axis_label : Label;
}.

(** The plot region, [ax] in the source. *)
Record Axes := mkAxes {
  ax_figure : handle;
  xaxis : Axis;
  yaxis : Axis;
  spines : Spines;
}.

Record Figure := mkFigure {
  fig_axes : list handle;
}.

(** The state behind [matplotlib.pyplot]. *)
Record pyplot := mkPyplot {
  figures : list Figure;
  axes : list Axes;
  current_figure : handle;
  current_axes : handle;
}.

(** ** Exceptions and the monad *)

Inductive exn :=
| KeyError (key : string)   (* a dict subscripted with a key it lacks *)
| AttributeError            (* a method looked up on something that is
                               not a live axes or figure *)
| TypeError.                (* a call with a keyword the signature lacks *)

Inductive result (A : Type) :=
| Ok (a : A)
| Raise (e : exn).
Arguments Ok {A} a.
Arguments Raise {A} e.

(** A computation reads and writes the pyplot state; what it wrote
    before raising stays written. *)
Definition M (A : Type) : Type := pyplot -> result A * pyplot.

Definition ret {A} (a : A) : M A := fun st => (Ok a, st).

Definition raise {A} (e : exn) : M A := fun st => (Raise e, st).

Definition bind {A B} (m : M A) (k : A -> M B) : M B :=
  fun st =>
    match m st with
    | (Ok a, st') => k a st'
    | (Raise e, st') => (Raise e, st')
    end.

Notation "'let!' x ':=' m 'in' k" := (bind m (fun x => k))
  (at level 10, x name, m at level 100, k at level 200, only parsing).
Notation "m ';;;' k" := (bind m (fun _ => k))
  (at level 100, k at level 200, right associativity, only parsing).

(** ** Field updates *)

Definition set_text (s : string) (l : Label) : Label :=
  mkLabel s (fontsize l) (color l).
Definition set_fontsize (size : float) (l : Label) : Label :=
  mkLabel (text l) (Some size) (color l).

Definition with_label (f : Label -> Label) (t : Tick) : Tick :=
  mkTick (loc t) (f (label1 t)).

Definition with_ticks (f : list Tick -> list Tick) (x : Axis) : Axis :=
  mkAxis (f (major_ticks x)) (view_limits x) (ticks_position x)
         (tick_direction x) (tick_color x) (axis_label x).
Definition with_ticks_position (p : string) (x : Axis) : Axis :=
  mkAxis (major_ticks x) (view_limits x) p
         (tick_direction x) (tick_color x) (axis_label x).

Definition with_xaxis (f : Axis -> Axis) (a : Axes) : Axes :=
  mkAxes (ax_figure a) (f (xaxis a)) (yaxis a) (spines a).
Definition with_yaxis (f : Axis -> Axis) (a : Axes) : Axes :=
  mkAxes (ax_figure a) (xaxis a) (f (yaxis a)) (spines a).
Definition with_spines (f : Spines -> Spines) (a : Axes) : Axes :=
  mkAxes (ax_figure a) (xaxis a) (yaxis a) (f (spines a)).
Definition with_figure (fig : handle) (a : Axes) : Axes :=
  mkAxes fig (xaxis a) (yaxis a) (spines a).

(** [spines[key]] and its in-place update. *)
Definition spines_getitem (key : side) (s : Spines) : Spine :=
  match key with
  | side_left => at_left s
  | side_right => at_right s
  | side_top => at_top s
  | side_bottom => at_bottom s
  end.

Definition with_spine (key : side) (f : Spine -> Spine) (s : Spines) : Spines :=
  match key with
  | side_left => mkSpines (f (at_left s)) (at_right s) (at_top s) (at_bottom s)
  | side_right => mkSpines (at_left s) (f (at_right s)) (at_top s) (at_bottom s)
  | side_top => mkSpines (at_left s) (at_right s) (f (at_top s)) (at_bottom s)
  | side_bottom => mkSpines (at_left s) (at_right s) (at_top s) (f (at_bottom s))
  end.

(** ** The library's methods on an axes object *)

Definition get_xticks (a : Axes) : list float := map loc (major_ticks (xaxis a)).
Definition get_yticks (a : Axes) : list float := map loc (major_ticks (yaxis a)).
Definition get_xticklabels (a : Axes) : list Label := map label1 (major_ticks (xaxis a)).
Definition get_yticklabels (a : Axes) : list Label := map label1 (major_ticks (yaxis a)).
Definition get_xlim (a : Axes) : float * float := view_limits (xaxis a).
Definition get_ylim (a : Axes) : float * float := view_limits (yaxis a).

(** [Spine.get_bounds()]; what the source tests for truth is a pair or
    [None], and a pair is always true. *)
Definition spine_get_bounds (key : side) (a : Axes) : option (float * float) :=
  spine_bounds (spines_getitem key (spines a)).
Definition spine_get_color (key : side) (a : Axes) : string :=
  spine_color (spines_getitem key (spines a)).

(** [set_xticks(locs)]: the axis gets one tick per position; a label
    has no text until the figure is drawn. *)
Definition new_tick (x : float) : Tick := mkTick x (mkLabel EmptyString None None).
Definition set_xticks (locs : list float) : Axes -> Axes :=
  with_xaxis (with_ticks (fun _ => map new_tick locs)).
Definition set_yticks (locs : list float) : Axes -> Axes :=
  with_yaxis (with_ticks (fun _ => map new_tick locs)).

(** [set_ticklabels(labels, **kw)] walks labels and ticks together
    and stops at the shorter; ticks past the end keep their label. *)
Fixpoint set_ticklabels (labels : list string) (f : Label -> Label)
    (ticks : list Tick) : list Tick :=
  match labels, ticks with
  | s :: labels', t :: ticks' =>
      with_label (fun l => f (set_text s l)) t :: set_ticklabels labels' f ticks'
  | _, _ => ticks
  end.


Definition spine_set_color (key : side) (c : string) : Axes -> Axes :=
  with_spines (with_spine key (fun s => mkSpine c (spine_bounds s))).
Definition spine_set_bounds (key : side) (lo hi : float) : Axes -> Axes :=
  with_spines (with_spine key (fun s => mkSpine (spine_color s) (Some (lo, hi)))).

Definition xaxis_set_ticks_position (p : string) : Axes -> Axes :=
  with_xaxis (with_ticks_position p).
Definition yaxis_set_ticks_position (p : string) : Axes -> Axes :=
  with_yaxis (with_ticks_position p).




(** ** Method calls through a reference *)

Definition with_axes_store (f : list Axes -> list Axes) (st : pyplot) : pyplot :=
  mkPyplot (figures st) (f (axes st)) (current_figure st) (current_axes st).

(** Calling a getter of the object [ax] names. *)
Definition getter {A} (ax : handle) (g : Axes -> A) : M A :=
  fun st =>
    match axes st !! ax with
    | Some a => (Ok (g a), st)
    | None => (Raise AttributeError, st)
    end.

(** Calling a setter: the object is updated where it lives, so every
    holder of the reference sees the change. *)
Definition setter (ax : handle) (f : Axes -> Axes) : M unit :=
  fun st =>
    match axes st !! ax with
    | Some a => (Ok tt, with_axes_store (fun l => <[ax := f a]> l) st)
    | None => (Raise AttributeError, st)
    end.

(** [plt.gcf()] and [plt.gca()]: the figure and the axes the library
    holds as current. *)
Definition plt_gcf : M handle := fun st => (Ok (current_figure st), st).
Definition plt_gca : M handle := fun st => (Ok (current_axes st), st).

(** [ax.get_figure()]. *)
Definition get_figure (ax : handle) : M handle := getter ax ax_figure.

(** ** The module *)

Record kwargs := mkKwargs {
  kw_ax : option handle;
  kw_fig : option handle;
}.

(** [kwargs['ax']] and [kwargs['fig']]. *)
Definition kwargs_ax (kw : kwargs) : M handle :=
  match kw_ax kw with
  | Some ax => ret ax
  | None => raise (KeyError "ax")
  end.
Definition kwargs_fig (kw : kwargs) : M handle :=
  match kw_fig kw with
  | Some fig => ret fig
  | None => raise (KeyError "fig")
  end.

Section Utils.

(** What the library leaves to its configuration: how a number is
    rendered as text, and the axes a new subplot starts as. *)
Variable format_tick : float -> string.
Variable rc_axes : Axes.

(** [plt.figure()]: a new, empty figure, made current. *)
Definition plt_figure : M handle :=
  fun st =>
    let fig := length (figures st) in
    (Ok fig, mkPyplot (figures st ++ [mkFigure []]) (axes st) fig (current_axes st)).

(** [fig.add_subplot(111)]: a new axes on [fig]; it becomes the current
    axes when [fig] is the current figure. *)
Definition add_subplot (fig : handle) : M handle :=
  fun st =>
    match figures st !! fig with
    | Some f =>
        let ax := length (axes st) in
        (Ok ax,
         mkPyplot (<[fig := mkFigure (fig_axes f ++ [ax])]> (figures st))
                  (axes st ++ [with_figure fig rc_axes])
                  (current_figure st)
                  (if Nat.eqb fig (current_figure st) then ax else current_axes st))
    | None => (Raise AttributeError, st)
    end.

(** [set_xticklabels(labels, fontsize=size)]: the labels, here tick
    positions, are rendered as text. *)
Definition set_xticklabels (labels : list float) (size : float) : Axes -> Axes :=
  with_xaxis (with_ticks (set_ticklabels (map format_tick labels) (set_fontsize size))).
Definition set_yticklabels (labels : list float) (size : float) : Axes -> Axes :=
  with_yaxis (with_ticks (set_ticklabels (map format_tick labels) (set_fontsize size))).

(** Lines 12-31. *)
Definition plotwrapper {A} (fun_ : kwargs -> M A) (kwargs : kwargs) : M handle :=
  let! kwargs :=
    match kw_ax kwargs with
    | None =>
        let! kwargs :=
          match kw_fig kwargs with
          | None => let! fig := plt_figure in ret (mkKwargs (kw_ax kwargs) (Some fig))
          | Some _ => ret kwargs
          end in
        let! fig := kwargs_fig kwargs in
        let! ax := add_subplot fig in
        ret (mkKwargs (Some ax) (kw_fig kwargs))
    | Some _ =>
        match kw_fig kwargs with
        | None =>
            let! ax := kwargs_ax kwargs in
            let! fig := get_figure ax in
            ret (mkKwargs (kw_ax kwargs) (Some fig))
        | Some _ => ret kwargs
        end
    end in
  fun_ kwargs ;;;
  kwargs_ax kwargs.

(** Lines 34-52. *)
Definition axwrapper {A} (fun_ : kwargs -> M A) (kwargs : kwargs) : M handle :=
  let! kwargs :=
    match kw_ax kwargs with
    | None =>
        let! kwargs :=
          match kw_fig kwargs with
          | None => let! fig := plt_gcf in ret (mkKwargs (kw_ax kwargs) (Some fig))
          | Some _ => ret kwargs
          end in
        let! ax := plt_gca in
        ret (mkKwargs (Some ax) (kw_fig kwargs))
    | Some _ =>
        match kw_fig kwargs with
        | None =>
            let! ax := kwargs_ax kwargs in
            let! fig := get_figure ax in
            ret (mkKwargs (kw_ax kwargs) (Some fig))
        | Some _ => ret kwargs
        end
    end in
  fun_ kwargs ;;;
  kwargs_ax kwargs.

(** Lines 55-71. *)
Definition setfontsize (size : float) : kwargs -> M handle :=
  plotwrapper (fun kwargs =>
    let! ax := kwargs_ax kwargs in
    let! xticks := getter ax get_xticks in
    setter ax (set_xticklabels xticks size) ;;;
    let! yticks := getter ax get_yticks in
    setter ax (set_yticklabels yticks size) ;;;
    ret ax).

(** Lines 74-82. *)
Definition noticks : kwargs -> M handle :=
  axwrapper (fun kwargs =>
    let! ax := kwargs_ax kwargs in
    setter ax (set_xticks []) ;;;
    setter ax (set_yticks [])).

(** The loop of lines 97-99 over the items of [disabled]. *)
Fixpoint disable_spines (ax : handle) (disabled : list (side * bool)) : M unit :=
  match disabled with
  | [] => ret tt
  | (key, flag) :: rest =>
      (if flag then setter ax (spine_set_color key "none") else ret tt) ;;;
      disable_spines ax rest
  end.

(** [disabled[key]]. *)
Fixpoint flag_of (disabled : list (side * bool)) (key : side) : bool :=
  match disabled with
  | [] => false
  | (k, flag) :: rest =>
      match k, key with
      | side_left, side_left | side_right, side_right
      | side_top, side_top | side_bottom, side_bottom => flag
      | _, _ => flag_of rest key
      end
  end.

(** Lines 85-117. *)
Definition nospines (left bottom top right : bool) : kwargs -> M handle :=
  axwrapper (fun kwargs =>
    let! ax := kwargs_ax kwargs in
    let disabled :=
      [(side_left, left); (side_right, right); (side_top, top); (side_bottom, bottom)] in
    disable_spines ax disabled ;;;
    (if flag_of disabled side_top && flag_of disabled side_bottom
     then setter ax (set_xticks [])
     else if flag_of disabled side_top
     then setter ax (xaxis_set_ticks_position "bottom")
     else if flag_of disabled side_bottom
     then setter ax (xaxis_set_ticks_position "top")
     else ret tt) ;;;
    (if flag_of disabled side_left && flag_of disabled side_right
     then setter ax (set_yticks [])
     else if flag_of disabled side_left
     then setter ax (yaxis_set_ticks_position "right")
     else if flag_of disabled side_right
     then setter ax (yaxis_set_ticks_position "left")
     else ret tt) ;;;
    ret ax).

(** [axis_map] of lines 124-127: per selector, the getters of the
    ticks, labels and limits, and the key of the spine. *)
Definition axis_entry : Type :=
  (Axes -> list float) * (Axes -> list Label) * (Axes -> float * float) * side.

Definition axis_map : list (string * axis_entry) :=
  [("x", (get_xticks, get_xticklabels, get_xlim, side_bottom));
   ("y", (get_yticks, get_yticklabels, get_ylim, side_left))].

(** Subscript of a dict given by its items. *)
Fixpoint getitem {V} (d : list (string * V)) (key : string) : option V :=
  match d with
  | [] => None
  | (k, v) :: rest => if String.eqb k key then Some v else getitem rest key
  end.

(** One turn of the loop of lines 136-141. *)
Definition scan_step (acc : option float * option float) (item : float * Label)
    : option float * option float :=
  let '(lower, upper) := acc in
  let '(tick, label) := item in
  if negb (String.eqb (text label) EmptyString) then
    match lower with
    | None => (Some tick, upper)
    | Some _ => (lower, Some tick)
    end
  else (lower, upper).

(** Lines 120-146. *)
Definition get_bounds (axis : string) (ax : option handle) : M (float * float) :=
  let! ax := match ax with None => plt_gca | Some ax => ret ax end in
  (* building axis_map looks up four methods of ax *)
  getter ax (fun _ => tt) ;;;
  match getitem axis_map axis with
  | None => raise (KeyError axis)
  | Some (ticks, labels, limits, spine_key) =>
      let! bounds := getter ax (spine_get_bounds spine_key) in
      match bounds with
      | Some b => ret b   (* the second get_bounds() reads the same field *)
      | None =>
          let! ts := getter ax ticks in
          let! ls := getter ax labels in
          match foldl scan_step (None, None) (zip ts ls) with
          | (Some lower, Some upper) => ret (lower, upper)
          | _ => getter ax limits
          end
      end
  end.







End Utils.


(** ** Vocabulary of the statements *)

(** The state in which the object [ax] names has become [a]. *)
Definition put (ax : handle) (a : Axes) (st : pyplot) : pyplot :=
  with_axes_store (fun l => <[ax := a]> l) st.

(** The axes a function behind [axwrapper] acts on. *)
Definition acted_on (kw : kwargs) (st : pyplot) : handle :=
  match kw_ax kw with
  | Some ax => ax
  | None => current_axes st
  end.

(** The positions of the ticks whose label has text, in order. *)
Fixpoint labelled (items : list (float * Label)) : list float :=
  match items with
  | [] => []
  | (tick, label) :: rest =>
      if String.eqb (text label) EmptyString then labelled rest
      else tick :: labelled rest
  end.

(** What [get_bounds] computes from the axes it is given, for the entry
    of [axis_map] the selector picks. *)
Definition bounds_of (entry : axis_entry) (a : Axes) : float * float :=
  let '(ticks, labels, limits, spine_key) := entry in
  match spine_get_bounds spine_key a with
  | Some b => b
  | None =>
      match foldl scan_step (None, None) (zip (ticks a) (labels a)) with
      | (Some lower, Some upper) => (lower, upper)
      | _ => limits a
      end
  end.

Definition scan_labelled (acc : option float * option float) (tick : float)
    : option float * option float :=
  match fst acc with
  | None => (Some tick, snd acc)
  | Some _ => (fst acc, Some tick)
  end.

(** The keywords the wrapped function receives from [axwrapper]. *)
Definition axwrapper_kwargs (kw : kwargs) (st : pyplot) (a : Axes) : kwargs :=
  mkKwargs (Some (acted_on kw st))
    (Some match kw_fig kw, kw_ax kw with
          | Some fig, _ => fig
          | None, None => current_figure st
          | None, Some _ => ax_figure a
          end).

Definition flagged (l b t r : bool) (key : side) : bool :=
  match key with
  | side_left => l
  | side_bottom => b
  | side_top => t
  | side_right => r
  end.

(** The axes [nospines] leaves behind. *)
Definition nospines_on (l b t r : bool) (a : Axes) : Axes :=
  let a := if l then spine_set_color side_left "none" a else a in
  let a := if r then spine_set_color side_right "none" a else a in
  let a := if t then spine_set_color side_top "none" a else a in
  let a := if b then spine_set_color side_bottom "none" a else a in
  let a :=
    if t && b then set_xticks [] a
    else if t then xaxis_set_ticks_position "bottom" a
    else if b then xaxis_set_ticks_position "top" a
    else a in
  if l && r then set_yticks [] a
  else if l then yaxis_set_ticks_position "right" a
  else if r then yaxis_set_ticks_position "left" a
  else a.

(** ** A session to evaluate on *)

Definition tick_at (x : float) (s : string) : Tick := mkTick x (mkLabel s None None).
Definition black : Spine := mkSpine "black" None.

(** Ticks every 2 from 0 to 10, labelled at 2 and 8 only. *)
Definition sparse_axis : Axis :=
  mkAxis [new_tick 0; tick_at 2 "2"; new_tick 4; new_tick 6; tick_at 8 "8"; new_tick 10]
         (0, 10)%float "default" None None (mkLabel "time" None None).

(** Ticks that were never drawn: no label has text. *)
Definition undrawn_axis : Axis :=
  mkAxis [new_tick 0; new_tick 5; new_tick 10]
         (0, 10)%float "default" None None (mkLabel EmptyString None None).

(** A single labelled tick. *)
Definition lone_axis : Axis :=
  mkAxis [new_tick 0; tick_at 5 "5"; new_tick 10]
         (0, 10)%float "default" None None (mkLabel EmptyString None None).

Definition sample_axes : Axes :=
  mkAxes 0 sparse_axis undrawn_axis (mkSpines black black black black).
Definition lone_axes : Axes :=
  mkAxes 0 lone_axis undrawn_axis (mkSpines black black black black).
Definition undrawn_axes : Axes :=
  mkAxes 0 undrawn_axis undrawn_axis (mkSpines black black black black).

(** One figure holding three axes; the first is current. *)
Definition session : pyplot :=
  mkPyplot [mkFigure [0; 1; 2]] [sample_axes; lone_axes; undrawn_axes] 0 0.

Definition sample_format (x : float) : string := "tick".







(** The wrapped function is run in state [st] with the keywords [ax]
    and [fig], both present, and then [ax] is returned. *)
Definition runs_with {A} (fun_ : kwargs -> M A) (ax fig : handle) (st : pyplot)
    : result handle * pyplot :=
  bind (fun_ (mkKwargs (Some ax) (Some fig))) (fun _ => ret ax) st.

(** The state after [plt.figure()] and [add_subplot(111)] on it. *)
Definition with_new_figure_and_axes (rc_axes : Axes) (st : pyplot) : pyplot :=
  mkPyplot (figures st ++ [mkFigure [length (axes st)]])
           (axes st ++ [with_figure (length (figures st)) rc_axes])
           (length (figures st)) (length (axes st)).


(** The axes [setfontsize] leaves behind. *)
Definition setfontsize_on (format_tick : float -> string) (size : float) (a : Axes)
    : Axes :=
  let a1 := set_xticklabels format_tick (get_xticks a) size a in
  set_yticklabels format_tick (get_yticks a1) size a1.


(** The axes [noticks] and [setcolor] leave behind. *)
Definition noticks_on (a : Axes) : Axes := set_yticks [] (set_xticks [] a).




(** The figures, the number of axes and the current figure and axes
    are the same in both states. *)
Definition same_frame (st st' : pyplot) : Prop :=
  figures st' = figures st /\
  length (axes st') = length (axes st) /\
  current_figure st' = current_figure st /\
  current_axes st' = current_axes st.

(** A computation that keeps them, whether it returns or raises. *)
Definition keeps_frame {A} (m : M A) : Prop :=
  forall st, same_frame st (snd (m st)).

(** ** The store *)

Lemma put_lookup ax a st :
  ax < length (axes st) -> axes (put ax a st) !! ax = Some a.
Proof. intros H. cbn. by apply list_lookup_insert_eq. Qed.

Lemma put_length ax a st : length (axes (put ax a st)) = length (axes st).
Proof. cbn. apply length_insert. Qed.

Lemma put_put ax a1 a2 st : put ax a2 (put ax a1 st) = put ax a2 st.
Proof. unfold put, with_axes_store. cbn. by rewrite list_insert_insert_eq. Qed.

Lemma put_id ax a st : axes st !! ax = Some a -> put ax a st = st.
Proof.
  intros H. destruct st as [fs l cf ca]. unfold put, with_axes_store. cbn in *.
  by rewrite list_insert_id.
Qed.

Lemma put_current_axes ax a st : current_axes (put ax a st) = current_axes st.
Proof. reflexivity. Qed.

Lemma put_current_figure ax a st : current_figure (put ax a st) = current_figure st.
Proof. reflexivity. Qed.

Lemma put_figures ax a st : figures (put ax a st) = figures st.
Proof. reflexivity. Qed.

(** ** One step of a computation *)

Lemma bind_ret {A B} (x : A) (k : A -> M B) st : bind (ret x) k st = k x st.
Proof. reflexivity. Qed.

Lemma bind_bind {A B C} (m : M A) (k : A -> M B) (k' : B -> M C) st :
  bind (bind m k) k' st = bind m (fun x => bind (k x) k') st.
Proof. unfold bind. destruct (m st) as [[x|e] st']; reflexivity. Qed.

Lemma bind_getter {A B} ax (g : Axes -> A) (k : A -> M B) a st :
  ax < length (axes st) ->
  bind (getter ax g) k (put ax a st) = k (g a) (put ax a st).
Proof. intros H. unfold bind, getter. by rewrite put_lookup. Qed.

Lemma bind_setter {B} ax (f : Axes -> Axes) (k : unit -> M B) a st :
  ax < length (axes st) ->
  bind (setter ax f) k (put ax a st) = k tt (put ax (f a) st).
Proof.
  intros H. unfold bind, setter. rewrite put_lookup by done.
  change (with_axes_store _ (put ax a st)) with (put ax (f a) (put ax a st)).
  by rewrite put_put.
Qed.

Lemma bind_kwargs_ax {B} ax fig (k : handle -> M B) st :
  bind (kwargs_ax (mkKwargs (Some ax) fig)) k st = k ax st.
Proof. reflexivity. Qed.

Lemma getter_dead {A} ax (g : Axes -> A) st :
  axes st !! ax = None -> getter ax g st = (Raise AttributeError, st).
Proof. intros H. unfold getter. by rewrite H. Qed.

Lemma setter_dead ax f st :
  axes st !! ax = None -> setter ax f st = (Raise AttributeError, st).
Proof. intros H. unfold setter. by rewrite H. Qed.

(** ** The scan of [get_bounds] *)

Lemma scan_skips_blank items : forall acc,
  foldl scan_step acc items = foldl scan_labelled acc (labelled items).
Proof.
  induction items as [|[tick label] rest IH]; intros [lower upper]; [done|].
  cbn [foldl labelled]. unfold scan_step at 2.
  destruct (String.eqb (text label) EmptyString); cbn [negb].
  - apply IH.
  - cbn [foldl]. rewrite IH. unfold scan_labelled at 2. cbn [fst snd].
    by destruct lower.
Qed.

Lemma scan_after_first ticks : forall lower upper,
  foldl scan_labelled (Some lower, upper) ticks
  = (Some lower, from_option Some upper (last ticks)).
Proof.
  induction ticks as [|t rest IH]; intros lower upper; [done|].
  cbn [foldl]. unfold scan_labelled at 2. cbn [fst snd]. rewrite IH.
  rewrite last_cons. by destruct (last rest).
Qed.

Lemma scan_result items :
  foldl scan_step (None, None) items
  = (head (labelled items), last (tail (labelled items))).
Proof.
  rewrite scan_skips_blank. destruct (labelled items) as [|t rest]; [done|].
  cbn [foldl head tail]. unfold scan_labelled at 2. cbn [fst snd].
  rewrite scan_after_first. by destruct (last rest).
Qed.

Lemma last_tail {A} (l : list A) : 2 <= length l -> last (tail l) = last l.
Proof. destruct l as [|x [|y l]]; cbn; intros; [lia|lia|done]. Qed.

Lemma last_tail_short {A} (l : list A) : length l < 2 -> last (tail l) = None.
Proof. destruct l as [|x [|y l]]; cbn; intros; [done|done|lia]. Qed.

(** ** [get_bounds] on a live axes *)

Lemma axis_map_inv axis entry :
  getitem axis_map axis = Some entry ->
  (axis = "x" /\ entry = (get_xticks, get_xticklabels, get_xlim, side_bottom)) \/
  (axis = "y" /\ entry = (get_yticks, get_yticklabels, get_ylim, side_left)).
Proof.
  unfold axis_map. cbn [getitem].
  destruct (String.eqb_spec "x" axis) as [<-|_]; [intros [= <-]; by left|].
  destruct (String.eqb_spec "y" axis) as [<-|_]; [intros [= <-]; by right|].
  discriminate.
Qed.

Lemma get_bounds_live axis entry ax a st :
  getitem axis_map axis = Some entry ->
  ax < length (axes st) ->
  get_bounds axis (Some ax) (put ax a st) = (Ok (bounds_of entry a), put ax a st).
Proof.
  intros He Hlt. unfold get_bounds. rewrite bind_ret, bind_getter by done.
  rewrite He. destruct entry as [[[ticks labels] limits] key].
  rewrite bind_getter by done. unfold bounds_of.
  destruct (spine_get_bounds key a) as [b|]; [reflexivity|].
  rewrite !bind_getter by done.
  destruct (foldl scan_step (None, None) (zip (ticks a) (labels a))) as [[lo|] [up|]];
    try reflexivity; unfold getter; by rewrite put_lookup.
Qed.

Lemma get_bounds_current axis st :
  get_bounds axis None st = get_bounds axis (Some (current_axes st)) st.
Proof. reflexivity. Qed.

(** ** The wrappers *)

Lemma axwrapper_live {A} (fun_ : kwargs -> M A) kw st a :
  axes st !! acted_on kw st = Some a ->
  axwrapper fun_ kw st
  = bind (fun_ (axwrapper_kwargs kw st a)) (fun _ => ret (acted_on kw st)) st.
Proof.
  intros H. unfold axwrapper, axwrapper_kwargs, acted_on in *.
  destruct kw as [[ax|] [fig|]]; cbn [kw_ax kw_fig] in *; try reflexivity.
  rewrite bind_bind, bind_kwargs_ax. unfold get_figure.
  rewrite bind_bind. unfold bind at 1, getter. rewrite H. reflexivity.
Qed.

Lemma bind_getter_dead {A B} ax (g : Axes -> A) (k : A -> M B) st :
  axes st !! ax = None -> bind (getter ax g) k st = (Raise AttributeError, st).
Proof. intros H. unfold bind. by rewrite getter_dead. Qed.

Lemma bind_setter_dead {B} ax f (k : unit -> M B) st :
  axes st !! ax = None -> bind (setter ax f) k st = (Raise AttributeError, st).
Proof. intros H. unfold bind. by rewrite setter_dead. Qed.

Lemma bind_plt_gca {B} (k : handle -> M B) st :
  bind plt_gca k st = k (current_axes st) st.
Proof. reflexivity. Qed.

Lemma bind_plt_gcf {B} (k : handle -> M B) st :
  bind plt_gcf k st = k (current_figure st) st.
Proof. reflexivity. Qed.

Ltac step :=
  first
    [ rewrite bind_bind
    | rewrite bind_ret
    | rewrite bind_plt_gca
    | rewrite bind_plt_gcf
    | rewrite bind_kwargs_ax
    | rewrite bind_setter by assumption
    | rewrite bind_getter by assumption
    | rewrite bind_setter_dead by assumption
    | rewrite bind_getter_dead by assumption ].

(** ** [nospines] *)

Lemma nospines_live l b t r kw st a :
  axes st !! acted_on kw st = Some a ->
  nospines l b t r kw st
  = (Ok (acted_on kw st), put (acted_on kw st) (nospines_on l b t r a) st).
Proof.
  intros H. unfold nospines. rewrite (axwrapper_live _ _ _ a H).
  unfold axwrapper_kwargs. set (ax := acted_on kw st) in *.
  assert (Hlt : ax < length (axes st)) by (by eapply lookup_lt_Some).
  rewrite <- (put_id ax a st H) at 1.
  destruct l, b, t, r; cbn [disable_spines flag_of andb nospines_on];
    repeat step; reflexivity.
Qed.

Lemma nospines_dead l b t r kw st :
  axes st !! acted_on kw st = None ->
  snd (nospines l b t r kw st) = st.
Proof.
  intros H. unfold nospines, axwrapper, acted_on, get_figure in *.
  destruct kw as [[ax|] [fig|]]; cbn [kw_ax kw_fig] in *;
    destruct l, b, t, r; cbn [disable_spines flag_of andb];
    repeat step; reflexivity.
Qed.

(** ** C4, C7: spine hiding *)

(** C4.  On the axes it resolves, [nospines] clears the colour of the
    spines whose flag is true and of no other, touches no spine bound,
    and places the ticks by the tie-break: top and bottom both hidden
    removes every x tick, top alone hidden puts the x ticks at the
    bottom, bottom alone hidden puts them at the top, neither leaves the
    x axis as it was; the same for y with left in place of top and right
    in place of bottom.  With the defaults (top and right) the left and
    bottom spines keep their colour, the x ticks go to the bottom and
    the y ticks to the left. *)
Theorem nospines_hides_flagged_and_places_ticks l b t r kw st a :
  axes st !! acted_on kw st = Some a ->
  exists a',
    nospines l b t r kw st = (Ok (acted_on kw st), put (acted_on kw st) a' st) /\
    (forall key, spine_get_color key a'
                 = if flagged l b t r key then "none" else spine_get_color key a) /\
    (forall key, spine_get_bounds key a' = spine_get_bounds key a) /\
    xaxis a' = (if t && b then with_ticks (fun _ => []) (xaxis a)
                else if t then with_ticks_position "bottom" (xaxis a)
                else if b then with_ticks_position "top" (xaxis a)
                else xaxis a) /\
    yaxis a' = (if l && r then with_ticks (fun _ => []) (yaxis a)
                else if l then with_ticks_position "right" (yaxis a)
                else if r then with_ticks_position "left" (yaxis a)
                else yaxis a) /\
    ((l, b, t, r) = (false, false, true, true) ->
     spine_get_color side_left a' = spine_get_color side_left a /\
     spine_get_color side_bottom a' = spine_get_color side_bottom a /\
     spine_get_color side_top a' = "none" /\
     spine_get_color side_right a' = "none" /\
     ticks_position (xaxis a') = "bottom" /\
     ticks_position (yaxis a') = "left" /\
     get_xticks a' = get_xticks a /\
     get_yticks a' = get_yticks a).
Proof.
  intros H. exists (nospines_on l b t r a). split; [by apply nospines_live|].
  split; [intros key; by destruct key, l, b, t, r|].
  split; [intros key; by destruct key, l, b, t, r|].
  split; [by destruct l, b, t, r|].
  split; [by destruct l, b, t, r|].
  intros [= -> -> -> ->]. by repeat split.
Qed.

Lemma nospines_hides_flagged_and_places_ticks_witness :
  axes session !! acted_on (mkKwargs None None) session = Some sample_axes /\
  exists a',
    nospines false false true true (mkKwargs None None) session
    = (Ok 0, put 0 a' session) /\
    spine_get_color side_top a' = "none" /\
    ticks_position (xaxis a') = "bottom".
Proof.
  destruct (nospines_hides_flagged_and_places_ticks
              false false true true (mkKwargs None None) session sample_axes
              eq_refl) as (a' & Hrun & _ & _ & _ & _ & Hdef).
  destruct (Hdef eq_refl) as (_ & _ & Htop & _ & Hx & _).
  split; [reflexivity|].
  exists a'. exact (conj Hrun (conj Htop Hx)).
Defined.

Lemma nospines_on_idem l b t r a :
  nospines_on l b t r (nospines_on l b t r a) = nospines_on l b t r a.
Proof. by destruct l, b, t, r. Qed.

(** C7.  A second call of [nospines] with the same flags and keywords
    returns what the first returned and leaves the state the first left:
    spine colours, tick positions and everything else. *)
Theorem nospines_idempotent l b t r kw st :
  nospines l b t r kw (snd (nospines l b t r kw st)) = nospines l b t r kw st.
Proof.
  destruct (axes st !! acted_on kw st) as [a|] eqn:H.
  - rewrite (nospines_live l b t r kw st a H). cbn [snd].
    assert (Hlt : acted_on kw st < length (axes st)) by (by eapply lookup_lt_Some).
    assert (Hsame : acted_on kw (put (acted_on kw st) (nospines_on l b t r a) st)
                    = acted_on kw st) by reflexivity.
    rewrite (nospines_live l b t r kw _ (nospines_on l b t r a)).
    + by rewrite Hsame, put_put, nospines_on_idem.
    + rewrite Hsame. by apply put_lookup.
  - by rewrite (nospines_dead l b t r kw st H).
Qed.

(** ** C1, C2, C8: bound computation *)

Lemma get_bounds_chosen axis entry ax st a :
  getitem axis_map axis = Some entry ->
  axes st !! default (current_axes st) ax = Some a ->
  get_bounds axis ax st = (Ok (bounds_of entry a), st).
Proof.
  intros He Ha.
  assert (get_bounds axis ax st
          = get_bounds axis (Some (default (current_axes st) ax)) st) as ->
    by (by destruct ax).
  set (h := default (current_axes st) ax) in *.
  rewrite <- (put_id h a st Ha).
  apply get_bounds_live; [done|]. by eapply lookup_lt_Some.
Qed.

(** C1, as amended.  When the selected spine carries no bound range and
    at least two ticks have label text, [get_bounds] returns the
    position of the first of them as lower bound and the position of
    the last as upper bound. *)
Theorem get_bounds_first_and_last_labelled
    axis ticks labels limits spine_key ax st a lower upper :
  getitem axis_map axis = Some (ticks, labels, limits, spine_key) ->
  axes st !! default (current_axes st) ax = Some a ->
  spine_get_bounds spine_key a = None ->
  head (labelled (zip (ticks a) (labels a))) = Some lower ->
  last (labelled (zip (ticks a) (labels a))) = Some upper ->
  2 <= length (labelled (zip (ticks a) (labels a))) ->
  get_bounds axis ax st = (Ok (lower, upper), st).
Proof.
  intros He Ha Hb Hlo Hup Hlen.
  rewrite (get_bounds_chosen _ _ _ _ _ He Ha). unfold bounds_of.
  by rewrite Hb, scan_result, last_tail, Hlo, Hup.
Qed.

(** Ticks labelled at 2 and 8 only: the bounds are (2, 8). *)
Lemma get_bounds_first_and_last_labelled_witness :
  spine_get_bounds side_bottom sample_axes = None /\
  labelled (zip (get_xticks sample_axes) (get_xticklabels sample_axes))
  = [2; 8]%float /\
  get_bounds "x" None session = (Ok (2, 8)%float, session).
Proof.
  split; [reflexivity|]. split; [reflexivity|].
  apply (get_bounds_first_and_last_labelled
           "x" get_xticks get_xticklabels get_xlim side_bottom None session
           sample_axes 2%float 8%float);
    solve [reflexivity | cbn; lia].
Defined.

(** C1 as stated fails on a single labelled tick: the first and the last
    labelled tick are both the one at 5, and the result is not (5, 5)
    but the display limits. *)
Lemma get_bounds_lone_tick_counterexample :
  spine_get_bounds side_bottom lone_axes = None /\
  head (labelled (zip (get_xticks lone_axes) (get_xticklabels lone_axes)))
  = Some 5%float /\
  last (labelled (zip (get_xticks lone_axes) (get_xticklabels lone_axes)))
  = Some 5%float /\
  get_bounds "x" (Some 1) session = (Ok (0, 10)%float, session) /\
  get_bounds "x" (Some 1) session <> (Ok (5, 5)%float, session).
Proof.
  repeat split; try reflexivity.
  intros H.
  assert (Hx : forall b : float * float,
             (Ok (0, 10)%float, session) = (Ok b, session) ->
             PrimFloat.eqb (fst b) 0 = true) by (by intros b [= <-]).
  specialize (Hx (5, 5)%float H). vm_compute in Hx. discriminate.
Qed.

(** C2.  When the selected spine carries no bound range and fewer than
    two ticks have label text (none, or exactly one), [get_bounds]
    returns the display limits of the axis. *)
Theorem get_bounds_falls_back_to_limits
    axis ticks labels limits spine_key ax st a :
  getitem axis_map axis = Some (ticks, labels, limits, spine_key) ->
  axes st !! default (current_axes st) ax = Some a ->
  spine_get_bounds spine_key a = None ->
  length (labelled (zip (ticks a) (labels a))) < 2 ->
  get_bounds axis ax st = (Ok (limits a), st).
Proof.
  intros He Ha Hb Hlen.
  rewrite (get_bounds_chosen _ _ _ _ _ He Ha). unfold bounds_of.
  rewrite Hb, scan_result, last_tail_short by done.
  by destruct (head _).
Qed.

(** One labelled tick, and none: the display limits both times. *)
Lemma get_bounds_falls_back_to_limits_witness :
  (length (labelled (zip (get_xticks lone_axes) (get_xticklabels lone_axes))) = 1 /\
   get_bounds "x" (Some 1) session = (Ok (get_xlim lone_axes), session)) /\
  (length (labelled (zip (get_yticks sample_axes) (get_yticklabels sample_axes))) = 0 /\
   get_bounds "y" None session = (Ok (get_ylim sample_axes), session)).
Proof.
  split; (split; [reflexivity|]).
  - apply (get_bounds_falls_back_to_limits
             "x" get_xticks get_xticklabels get_xlim side_bottom (Some 1) session
             lone_axes);
      solve [reflexivity | cbn; lia].
  - apply (get_bounds_falls_back_to_limits
             "y" get_yticks get_yticklabels get_ylim side_left None session
             sample_axes);
      solve [reflexivity | cbn; lia].
Defined.






(** ** C3, C10: padding *)













(** ** C6: which axes and figure a wrapper resolves *)

Lemma plotwrapper_creates_both {A} rc_axes (fun_ : kwargs -> M A) st :
  plotwrapper rc_axes fun_ (mkKwargs None None) st
  = runs_with fun_ (length (axes st)) (length (figures st))
      (with_new_figure_and_axes rc_axes st).
Proof.
  unfold plotwrapper, runs_with. cbn [kw_ax kw_fig].
  repeat rewrite bind_bind. unfold bind at 1, plt_figure.
  repeat step. cbn [kw_ax kw_fig kwargs_fig]. repeat step.
  unfold bind at 1, add_subplot. cbn [figures axes current_figure current_axes].
  rewrite lookup_app_r by done. rewrite Nat.sub_diag. cbn [lookup list_lookup].
  rewrite Nat.eqb_refl. repeat step. cbn [kw_ax kw_fig].
  unfold with_new_figure_and_axes.
  rewrite insert_app_r_alt by done. rewrite Nat.sub_diag. reflexivity.
Qed.


Lemma plotwrapper_dead_figure {A} rc_axes (fun_ : kwargs -> M A) fig st :
  figures st !! fig = None ->
  plotwrapper rc_axes fun_ (mkKwargs None (Some fig)) st = (Raise AttributeError, st).
Proof.
  intros H. unfold plotwrapper. cbn [kw_ax kw_fig].
  repeat step. cbn [kwargs_fig kw_fig]. repeat step.
  unfold bind at 1, add_subplot. rewrite H. reflexivity.
Qed.

Lemma plotwrapper_derives_figure {A} rc_axes (fun_ : kwargs -> M A) ax a st :
  axes st !! ax = Some a ->
  plotwrapper rc_axes fun_ (mkKwargs (Some ax) None) st
  = runs_with fun_ ax (ax_figure a) st.
Proof.
  intros H. unfold plotwrapper, runs_with, get_figure. cbn [kw_ax kw_fig].
  repeat step. unfold bind at 1, getter. rewrite H. reflexivity.
Qed.

Lemma wrapper_dead_axes {A} rc_axes (fun_ : kwargs -> M A) ax st :
  axes st !! ax = None ->
  plotwrapper rc_axes fun_ (mkKwargs (Some ax) None) st = (Raise AttributeError, st) /\
  axwrapper fun_ (mkKwargs (Some ax) None) st = (Raise AttributeError, st).
Proof.
  intros H. unfold plotwrapper, axwrapper, get_figure. cbn [kw_ax kw_fig].
  split; repeat step; reflexivity.
Qed.




(** ** C9: tick font size *)

Lemma set_ticklabels_own (format_tick : float -> string) f ticks :
  set_ticklabels (map format_tick (map loc ticks)) f ticks
  = map (fun t => with_label (fun l => f (set_text (format_tick (loc t)) l)) t) ticks.
Proof. induction ticks as [|t rest IH]; [done|]. cbn. by rewrite IH. Qed.



Lemma setfontsize_runs format_tick size ax fig a st :
  axes st !! ax = Some a ->
  runs_with (fun kwargs =>
    let! ax := kwargs_ax kwargs in
    let! xticks := getter ax get_xticks in
    setter ax (set_xticklabels format_tick xticks size) ;;;
    let! yticks := getter ax get_yticks in
    setter ax (set_yticklabels format_tick yticks size) ;;;
    ret ax) ax fig st
  = (Ok ax, put ax (setfontsize_on format_tick size a) st).
Proof.
  intros H. assert (Hlt : ax < length (axes st)) by (by eapply lookup_lt_Some).
  unfold runs_with. rewrite <- (put_id ax a st H) at 1.
  repeat step. reflexivity.
Qed.




(** ** C5: what the public functions return *)

Lemma noticks_live kw st a :
  axes st !! acted_on kw st = Some a ->
  noticks kw st = (Ok (acted_on kw st), put (acted_on kw st) (noticks_on a) st).
Proof.
  intros H. unfold noticks. rewrite (axwrapper_live _ _ _ a H).
  unfold axwrapper_kwargs. set (ax := acted_on kw st) in *.
  assert (Hlt : ax < length (axes st)) by (by eapply lookup_lt_Some).
  rewrite <- (put_id ax a st H) at 1.
  repeat step. reflexivity.
Qed.


Lemma put_lookup_ne ax a st h : h <> ax -> axes (put ax a st) !! h = axes st !! h.
Proof. intros Hne. cbn. by apply list_lookup_insert_ne. Qed.





(** ** Further properties of [get_bounds] and [noticks] *)



(** X1.  A bound range set on the selected spine has priority: it is
    what [get_bounds] returns, whatever the ticks, their labels and the
    display limits are. *)
Theorem get_bounds_returns_spine_bounds
    axis ticks labels limits spine_key ax st a b :
  getitem axis_map axis = Some (ticks, labels, limits, spine_key) ->
  axes st !! default (current_axes st) ax = Some a ->
  spine_get_bounds spine_key a = Some b ->
  get_bounds axis ax st = (Ok b, st).
Proof.
  intros He Ha Hb. rewrite (get_bounds_chosen _ _ _ _ _ He Ha).
  unfold bounds_of. by rewrite Hb.
Qed.

Lemma get_bounds_returns_spine_bounds_witness :
  spine_get_bounds side_bottom
    (spine_set_bounds side_bottom 3 7 sample_axes) = Some (3, 7)%float /\
  get_bounds "x" (Some 0)
    (put 0 (spine_set_bounds side_bottom 3 7 sample_axes) session)
  = (Ok (3, 7)%float, put 0 (spine_set_bounds side_bottom 3 7 sample_axes) session).
Proof.
  split; [reflexivity|].
  apply (get_bounds_returns_spine_bounds
           "x" get_xticks get_xticklabels get_xlim side_bottom (Some 0)
           (put 0 (spine_set_bounds side_bottom 3 7 sample_axes) session)
           (spine_set_bounds side_bottom 3 7 sample_axes) (3, 7)%float);
    reflexivity.
Defined.


(** X3.  After [noticks] the axes has no tick and no tick label on
    either axis; its display limits, its axis labels and its spines are
    the ones it had. *)
Theorem noticks_clears_both_axes kw st a :
  axes st !! acted_on kw st = Some a ->
  exists a',
    noticks kw st = (Ok (acted_on kw st), put (acted_on kw st) a' st) /\
    get_xticks a' = [] /\ get_yticks a' = [] /\
    get_xticklabels a' = [] /\ get_yticklabels a' = [] /\
    get_xlim a' = get_xlim a /\ get_ylim a' = get_ylim a /\
    axis_label (xaxis a') = axis_label (xaxis a) /\
    axis_label (yaxis a') = axis_label (yaxis a) /\
    spines a' = spines a.
Proof.
  intros H. exists (noticks_on a). split; [by apply noticks_live|].
  by repeat split.
Qed.

Lemma noticks_clears_both_axes_witness :
  axes session !! acted_on (mkKwargs None None) session = Some sample_axes /\
  exists a',
    noticks (mkKwargs None None) session = (Ok 0, put 0 a' session) /\
    get_xticks a' = [] /\ get_yticks a' = [].
Proof.
  split; [reflexivity|].
  destruct (noticks_clears_both_axes (mkKwargs None None) session sample_axes eq_refl)
    as (a' & Hrun & Hx & Hy & _).
  exists a'. exact (conj Hrun (conj Hx Hy)).
Defined.

(** X4.  After [noticks], [get_bounds] on that axes finds no labelled
    tick: for a spine without bound range it returns the display limits
    the axis had before the call. *)
Theorem get_bounds_after_noticks
    axis ticks labels limits spine_key kw st a :
  getitem axis_map axis = Some (ticks, labels, limits, spine_key) ->
  axes st !! acted_on kw st = Some a ->
  spine_get_bounds spine_key a = None ->
  get_bounds axis (Some (acted_on kw st)) (snd (noticks kw st))
  = (Ok (limits a), snd (noticks kw st)).
Proof.
  intros He Ha Hb. rewrite (noticks_live kw st a Ha). cbn [snd].
  assert (Hlt : acted_on kw st < length (axes st)) by (by eapply lookup_lt_Some).
  rewrite (get_bounds_live axis _ _ _ _ He Hlt). f_equal. f_equal.
  destruct (axis_map_inv _ _ He) as [[_ [= -> -> -> ->]] | [_ [= -> -> -> ->]]];
    unfold bounds_of;
    (replace (spine_get_bounds _ (noticks_on a)) with (@None (float * float))
       by (by rewrite <- Hb));
    reflexivity.
Qed.

Lemma get_bounds_after_noticks_witness :
  axes session !! acted_on (mkKwargs None None) session = Some sample_axes /\
  get_bounds "x" None session = (Ok (2, 8)%float, session) /\
  get_bounds "x" (Some 0) (snd (noticks (mkKwargs None None) session))
  = (Ok (0, 10)%float, snd (noticks (mkKwargs None None) session)).
Proof.
  split; [reflexivity|]. split; [reflexivity|].
  apply (get_bounds_after_noticks
           "x" get_xticks get_xticklabels get_xlim side_bottom
           (mkKwargs None None) session sample_axes);
    reflexivity.
Defined.

(** ** Further properties of [breathe] *)










(** ** Further properties of [setcolor], [tickdir] and [nospines] *)






(** X9.  Hidden spines add up and none comes back: after two calls of
    [nospines] on the same axes, a spine has no colour if either call
    flagged it, and otherwise the colour it had before the first; so a
    spine that was already without colour stays so under any flags. *)
Theorem nospines_accumulates l1 b1 t1 r1 l2 b2 t2 r2 kw st a :
  axes st !! acted_on kw st = Some a ->
  exists a'',
    nospines l2 b2 t2 r2 kw (snd (nospines l1 b1 t1 r1 kw st))
    = (Ok (acted_on kw st), put (acted_on kw st) a'' st) /\
    (forall key,
       spine_get_color key a''
       = if flagged l1 b1 t1 r1 key || flagged l2 b2 t2 r2 key then "none"
         else spine_get_color key a) /\
    (forall key,
       spine_get_color key a = "none" -> spine_get_color key a'' = "none").
Proof.
  intros H. exists (nospines_on l2 b2 t2 r2 (nospines_on l1 b1 t1 r1 a)).
  assert (Hcol : forall key,
             spine_get_color key (nospines_on l2 b2 t2 r2 (nospines_on l1 b1 t1 r1 a))
             = if flagged l1 b1 t1 r1 key || flagged l2 b2 t2 r2 key then "none"
               else spine_get_color key a)
    by (intros key; by destruct key, l1, b1, t1, r1, l2, b2, t2, r2).
  split; [|split; [exact Hcol|]].
  - rewrite (nospines_live l1 b1 t1 r1 kw st a H). cbn [snd].
    assert (Hlt : acted_on kw st < length (axes st)) by (by eapply lookup_lt_Some).
    assert (Hsame : acted_on kw (put (acted_on kw st) (nospines_on l1 b1 t1 r1 a) st)
                    = acted_on kw st) by reflexivity.
    rewrite (nospines_live l2 b2 t2 r2 kw _ (nospines_on l1 b1 t1 r1 a))
      by (rewrite Hsame; by apply put_lookup).
    by rewrite Hsame, put_put.
  - intros key Hnone. rewrite Hcol, Hnone. by destruct (_ || _).
Qed.

Lemma nospines_accumulates_witness :
  axes session !! acted_on (mkKwargs None None) session = Some sample_axes /\
  exists a'',
    nospines false true false false (mkKwargs None None)
      (snd (nospines true false false false (mkKwargs None None) session))
    = (Ok 0, put 0 a'' session) /\
    spine_get_color side_left a'' = "none" /\
    spine_get_color side_bottom a'' = "none" /\
    spine_get_color side_top a'' = "black".
Proof.
  split; [reflexivity|].
  destruct (nospines_accumulates
              true false false false false true false false
              (mkKwargs None None) session sample_axes eq_refl)
    as (a'' & Hrun & Hcol & _).
  exists a''. split; [exact Hrun|].
  split; [exact (Hcol side_left)|].
  split; [exact (Hcol side_bottom)|exact (Hcol side_top)].
Defined.


(** ** What no function behind [axwrapper] does *)

Lemma same_frame_refl st : same_frame st st.
Proof. by repeat split. Qed.


Lemma keeps_frame_ret {A} (x : A) : keeps_frame (ret x).
Proof. intros st. apply same_frame_refl. Qed.

Lemma keeps_frame_raise {A} e : keeps_frame (@raise A e).
Proof. intros st. apply same_frame_refl. Qed.


Lemma keeps_frame_getter {A} ax (g : Axes -> A) : keeps_frame (getter ax g).
Proof. intros st. unfold getter. destruct (axes st !! ax); apply same_frame_refl. Qed.

Lemma keeps_frame_setter ax f : keeps_frame (setter ax f).
Proof.
  intros st. unfold setter. destruct (axes st !! ax); [|apply same_frame_refl].
  repeat split. cbn. apply length_insert.
Qed.

Lemma keeps_frame_kwargs_ax kw : keeps_frame (kwargs_ax kw).
Proof. unfold kwargs_ax. destruct (kw_ax kw); [apply keeps_frame_ret|apply keeps_frame_raise]. Qed.

Lemma keeps_frame_plt_gca : keeps_frame plt_gca.
Proof. intros st. apply same_frame_refl. Qed.

Lemma keeps_frame_plt_gcf : keeps_frame plt_gcf.
Proof. intros st. apply same_frame_refl. Qed.


Create HintDb frame.
#[local] Hint Resolve keeps_frame_ret keeps_frame_raise keeps_frame_getter
  keeps_frame_setter keeps_frame_kwargs_ax keeps_frame_plt_gca keeps_frame_plt_gcf
  : frame.












(** ** Further properties of [setfontsize] *)

(** X12.  Called without [ax] and [fig], [setfontsize] does not style
    the current axes: it returns a new axes on a new figure, one more
    of each than before, and every axes that existed is as it was. *)
Theorem setfontsize_without_keywords_creates format_tick rc_axes size st :
  exists st',
    setfontsize format_tick rc_axes size (mkKwargs None None) st
    = (Ok (length (axes st)), st') /\
    length (figures st') = S (length (figures st)) /\
    length (axes st') = S (length (axes st)) /\
    (forall h, h < length (axes st) -> axes st' !! h = axes st !! h) /\
    (ax_figure <$> axes st' !! length (axes st)) = Some (length (figures st)).
Proof.
  set (ax := length (axes st)). set (st1 := with_new_figure_and_axes rc_axes st).
  assert (Hnew : axes st1 !! ax = Some (with_figure (length (figures st)) rc_axes))
    by (by apply list_lookup_middle).
  exists (put ax (setfontsize_on format_tick size
                    (with_figure (length (figures st)) rc_axes)) st1).
  split.
  { unfold setfontsize. rewrite plotwrapper_creates_both.
    by apply setfontsize_runs. }
  assert (Hlt : ax < length (axes st1)) by (by eapply lookup_lt_Some).
  split; [cbn; rewrite length_app; cbn; lia|].
  split; [rewrite put_length; cbn; rewrite length_app; cbn; lia|].
  split.
  - intros h Hh. rewrite put_lookup_ne by (unfold ax; lia).
    by apply lookup_app_l.
  - by rewrite put_lookup.
Qed.

Lemma labelled_all (ticks : list Tick) :
  Forall (fun t => text (label1 t) <> EmptyString) ticks ->
  labelled (zip (map loc ticks) (map label1 ticks)) = map loc ticks.
Proof.
  induction 1 as [|t rest Ht _ IH]; [done|].
  cbn. destruct (String.eqb_spec (text (label1 t)) EmptyString); [done|].
  by rewrite IH.
Qed.

Lemma setfontsize_on_xaxis_ticks format_tick size a :
  major_ticks (xaxis (setfontsize_on format_tick size a))
  = map (fun t => with_label
                    (fun l => set_fontsize size (set_text (format_tick (loc t)) l)) t)
        (major_ticks (xaxis a)).
Proof.
  unfold setfontsize_on, set_xticklabels, set_yticklabels, get_xticks. cbn.
  apply set_ticklabels_own.
Qed.

Lemma setfontsize_on_yaxis_ticks format_tick size a :
  major_ticks (yaxis (setfontsize_on format_tick size a))
  = map (fun t => with_label
                    (fun l => set_fontsize size (set_text (format_tick (loc t)) l)) t)
        (major_ticks (yaxis a)).
Proof.
  unfold setfontsize_on, set_xticklabels, set_yticklabels, get_yticks. cbn.
  apply set_ticklabels_own.
Qed.

Lemma relabelled_all_labelled format_tick size (ticks : list Tick) :
  (forall x, format_tick x <> EmptyString) ->
  labelled
    (zip (map loc (map (fun t => with_label
                     (fun l => set_fontsize size (set_text (format_tick (loc t)) l)) t)
                   ticks))
         (map label1 (map (fun t => with_label
                     (fun l => set_fontsize size (set_text (format_tick (loc t)) l)) t)
                   ticks)))
  = map loc ticks.
Proof.
  intros Hfmt. rewrite labelled_all.
  - rewrite map_map. by apply map_ext.
  - apply Forall_map. apply Forall_true. intros t. cbn. apply Hfmt.
Qed.

Lemma setfontsize_given_axes format_tick rc_axes size ax fig st a :
  axes st !! ax = Some a ->
  setfontsize format_tick rc_axes size (mkKwargs (Some ax) fig) st
  = (Ok ax, put ax (setfontsize_on format_tick size a) st).
Proof.
  intros Ha. unfold setfontsize. destruct fig as [fig|].
  - change (plotwrapper _ _ _ _) with (runs_with
      (fun kwargs =>
         let! ax := kwargs_ax kwargs in
         let! xticks := getter ax get_xticks in
         setter ax (set_xticklabels format_tick xticks size) ;;;
         let! yticks := getter ax get_yticks in
         setter ax (set_yticklabels format_tick yticks size) ;;;
         ret ax) ax fig st).
    by apply setfontsize_runs.
  - rewrite (plotwrapper_derives_figure _ _ _ a) by done.
    by apply setfontsize_runs.
Qed.

(** X13.  After [setfontsize] every tick carries the rendering of its
    position as label; when that text is never empty (as the text of a
    number is), [get_bounds] on an axis with at least two ticks and no
    bound range on its spine returns the positions of the first and of
    the last tick. *)
Theorem get_bounds_after_setfontsize
    format_tick rc_axes size axis ticks labels limits spine_key ax fig st a lower upper :
  (forall x, format_tick x <> EmptyString) ->
  getitem axis_map axis = Some (ticks, labels, limits, spine_key) ->
  axes st !! ax = Some a ->
  spine_get_bounds spine_key a = None ->
  head (ticks a) = Some lower ->
  last (ticks a) = Some upper ->
  2 <= length (ticks a) ->
  get_bounds axis (Some ax)
    (snd (setfontsize format_tick rc_axes size (mkKwargs (Some ax) fig) st))
  = (Ok (lower, upper),
     snd (setfontsize format_tick rc_axes size (mkKwargs (Some ax) fig) st)).
Proof.
  intros Hfmt He Ha Hb Hlo Hup Hlen.
  rewrite (setfontsize_given_axes _ _ _ _ _ _ a Ha). cbn [snd].
  assert (Hlt : ax < length (axes st)) by (by eapply lookup_lt_Some).
  rewrite (get_bounds_live axis _ _ _ _ He Hlt). f_equal. f_equal.
  unfold bounds_of.
  destruct (axis_map_inv _ _ He) as [[_ [= -> -> -> ->]] | [_ [= -> -> -> ->]]].
  - replace (spine_get_bounds side_bottom (setfontsize_on format_tick size a))
      with (@None (float * float)) by (by rewrite <- Hb).
    rewrite scan_result. unfold get_xticks, get_xticklabels in *.
    rewrite setfontsize_on_xaxis_ticks, relabelled_all_labelled by done.
    by rewrite last_tail, Hlo, Hup.
  - replace (spine_get_bounds side_left (setfontsize_on format_tick size a))
      with (@None (float * float)) by (by rewrite <- Hb).
    rewrite scan_result. unfold get_yticks, get_yticklabels in *.
    rewrite setfontsize_on_yaxis_ticks, relabelled_all_labelled by done.
    by rewrite last_tail, Hlo, Hup.
Qed.

Lemma get_bounds_after_setfontsize_witness :
  get_bounds "x" (Some 0) session = (Ok (2, 8)%float, session) /\
  get_bounds "x" (Some 0)
    (snd (setfontsize sample_format sample_axes 18 (mkKwargs (Some 0) None) session))
  = (Ok (0, 10)%float,
     snd (setfontsize sample_format sample_axes 18 (mkKwargs (Some 0) None) session)).
Proof.
  split; [reflexivity|].
  apply (get_bounds_after_setfontsize
           sample_format sample_axes 18 "x" get_xticks get_xticklabels get_xlim
           side_bottom 0 None session sample_axes 0%float 10%float);
    solve [reflexivity | discriminate | cbn; lia].
Defined.

Lemma Axis_eq (x y : Axis) :
  major_ticks x = major_ticks y -> view_limits x = view_limits y ->
  ticks_position x = ticks_position y -> tick_direction x = tick_direction y ->
  tick_color x = tick_color y -> axis_label x = axis_label y -> x = y.
Proof. destruct x, y. cbn. by intros -> -> -> -> -> ->. Qed.

Lemma Axes_eq (a b : Axes) :
  ax_figure a = ax_figure b -> xaxis a = xaxis b -> yaxis a = yaxis b ->
  spines a = spines b -> a = b.
Proof. destruct a, b. cbn. by intros -> -> -> ->. Qed.

Lemma setfontsize_on_last_wins format_tick s1 s2 a :
  setfontsize_on format_tick s2 (setfontsize_on format_tick s1 a)
  = setfontsize_on format_tick s2 a.
Proof.
  assert (Hx := setfontsize_on_xaxis_ticks format_tick s2 (setfontsize_on format_tick s1 a)).
  assert (Hy := setfontsize_on_yaxis_ticks format_tick s2 (setfontsize_on format_tick s1 a)).
  rewrite (setfontsize_on_xaxis_ticks format_tick s1 a), map_map in Hx.
  rewrite (setfontsize_on_yaxis_ticks format_tick s1 a), map_map in Hy.
  assert (Hx' := setfontsize_on_xaxis_ticks format_tick s2 a).
  assert (Hy' := setfontsize_on_yaxis_ticks format_tick s2 a).
  assert (Ex : major_ticks (xaxis (setfontsize_on format_tick s2
                                     (setfontsize_on format_tick s1 a)))
               = major_ticks (xaxis (setfontsize_on format_tick s2 a)))
    by (rewrite Hx, Hx'; by apply map_ext).
  assert (Ey : major_ticks (yaxis (setfontsize_on format_tick s2
                                     (setfontsize_on format_tick s1 a)))
               = major_ticks (yaxis (setfontsize_on format_tick s2 a)))
    by (rewrite Hy, Hy'; by apply map_ext).
  apply Axes_eq; try reflexivity; apply Axis_eq; try reflexivity; assumption.
Qed.

Lemma setfontsize_dead format_tick rc_axes size ax fig st :
  axes st !! ax = None ->
  snd (setfontsize format_tick rc_axes size (mkKwargs (Some ax) fig) st) = st.
Proof.
  intros H. unfold setfontsize, plotwrapper, get_figure.
  destruct fig as [fig|]; cbn [kw_ax kw_fig]; repeat step; reflexivity.
Qed.

(** X14.  On an axes that is given, the last [setfontsize] wins: a call
    after an earlier one returns what it would return and leaves the
    state it would leave without the earlier call; with the same size
    the second call changes nothing. *)
Theorem setfontsize_last_wins format_tick rc_axes s1 s2 ax fig st :
  setfontsize format_tick rc_axes s2 (mkKwargs (Some ax) fig)
    (snd (setfontsize format_tick rc_axes s1 (mkKwargs (Some ax) fig) st))
  = setfontsize format_tick rc_axes s2 (mkKwargs (Some ax) fig) st.
Proof.
  destruct (axes st !! ax) as [a|] eqn:H.
  - rewrite (setfontsize_given_axes _ _ s1 _ _ _ a H). cbn [snd].
    assert (Hlt : ax < length (axes st)) by (by eapply lookup_lt_Some).
    rewrite (setfontsize_given_axes _ _ s2 _ _ _ (setfontsize_on format_tick s1 a))
      by (by apply put_lookup).
    rewrite put_put, setfontsize_on_last_wins.
    symmetry. by apply setfontsize_given_axes.
  - by rewrite (setfontsize_dead _ _ s1 _ _ _ H).
Qed.
